(** * Captioner: the Linux runner's application object

    A shallow embedding of [linux/runner/my_application.cc]: the GObject
    subclass [MyApplication] of [GtkApplication] and its virtual functions
    ([activate], [local_command_line], [startup], [shutdown], [dispose]),
    together with the callback [first_frame_cb].

    The handlers are sequences of calls into GLib, GTK and the Flutter
    embedder.  They are written here in a small monad that threads the
    state the handlers can observe (the application object's field, the
    registration flag, the widget tree, the signal connections) and records
    every toolkit call and every store to the field in a trace.  What the
    operating system answers (can the executable's link be read, does a
    file exist, does an image load, does registration succeed) is an [Env]
    given to each handler. *)

From Stdlib Require Import String Ascii List ZArith Bool Arith Lia.
Import ListNotations.
Local Open Scope string_scope.
Local Open Scope list_scope.

(** ** Data *)

(** A NULL-terminated [char **] vector, without its terminator.  A pointer
    to such a vector is an [option strv]: [None] is [nullptr]. *)
Definition strv : Type := list string.

(** [GdkRGBA], with each channel on Pango's 16-bit scale (GDK divides by
    65535 to get its [0, 1] range): [alpha = 65535] is opaque. *)
Record GdkRGBA : Type := mkRGBA { red : Z; green : Z; blue : Z; alpha : Z }.

(** A loaded image; only the file it was read from is kept. *)
Inductive GdkPixbuf : Type := Pixbuf (file : string).

(** Objects are named by the order of their creation. *)
Inductive widget : Type :=
| GtkWindow (id : nat)
| FlView (id : nat).

(** The functions this file connects to signals. *)
Inductive callback : Type := First_frame_cb.

(** [struct _MyApplication]; the parent instance lives in the toolkit's
    part of the [World]. *)
Record MyApplication : Type := mkApp {
  dart_entrypoint_arguments : option strv
}.

(** ** Trace *)

Inductive Event : Type :=
| c_gtk_application_window_new (window : nat)
| c_gtk_window_set_title (window : nat) (title : string)
| c_gtk_window_set_default_size (window : nat) (width height : Z)
| c_g_file_read_link (path : string)
| c_g_file_test (path : string)
| c_gdk_pixbuf_new_from_file (path : string)
| c_gtk_window_set_icon (window : nat) (icon : GdkPixbuf)
| c_g_object_unref (icon : GdkPixbuf)
| c_g_warning (message : string)
| c_fl_dart_project_new (project : nat)
| c_fl_dart_project_set_dart_entrypoint_arguments
    (project : nat) (argv : option strv)
| c_fl_view_new (view project : nat)
| c_fl_view_set_background_color (view : nat) (color : option GdkRGBA)
| c_gtk_widget_show (w : widget)
| c_gtk_container_add (window view : nat)
| c_g_signal_connect_swapped (view : nat) (signal : string) (cb : callback)
| c_gtk_widget_realize (view : nat)
| c_fl_register_plugins (view : nat)
| c_gtk_widget_grab_focus (view : nat)
| c_gtk_widget_get_toplevel (w : widget)
| c_g_strdupv (v : option strv)
| c_g_strfreev (v : strv)
| c_g_application_register
| c_g_application_activate
| c_parent_startup
| c_parent_shutdown
| c_parent_dispose
| store_dart_entrypoint_arguments (v : option strv).

(** ** State *)

Record World : Type := mkWorld {
  self : MyApplication;
  is_registered : bool;
  next_object : nat;
  toplevel_of : list (nat * nat);
  connections : list (nat * string * callback);
  visible : list widget
}.

(** What the operating system and the session answer during one handler. *)
Record Env : Type := mkEnv {
  read_link : string -> option string;
  file_exists : string -> bool;
  load_pixbuf : string -> GdkPixbuf + string;
  register_error : option string
}.

(** GLib's pure path functions, used but not defined by the runner. *)
Class GLibPaths : Type := {
  g_path_get_dirname : string -> string;
  g_build_filename : string -> list string -> string
}.

(** ** The monad *)

(** A handler either finishes with a value, a new world and the events it
    produced, or its behaviour is undefined (a read outside an array). *)
Inductive outcome (A : Type) : Type :=
| Done (a : A) (w : World) (tr : list Event)
| Undefined.
Arguments Done {A} a w tr.
Arguments Undefined {A}.

Definition M (A : Type) : Type := World -> outcome A.

Definition ret {A} (a : A) : M A := fun w => Done a w [].

Definition bind {A B} (m : M A) (f : A -> M B) : M B :=
  fun w =>
    match m w with
    | Done a w1 t1 =>
        match f a w1 with
        | Done b w2 t2 => Done b w2 (t1 ++ t2)
        | Undefined => Undefined
        end
    | Undefined => Undefined
    end.

Definition undefined {A} : M A := fun _ => Undefined.
Definition emit (e : Event) : M unit := fun w => Done tt w [e].
Definition get : M World := fun w => Done w w [].
Definition modify (f : World -> World) : M unit := fun w => Done tt (f w) [].

Declare Scope runner_scope.
Delimit Scope runner_scope with runner.
Notation "x <- c1 ;; c2" := (bind c1 (fun x => c2))
  (at level 61, c1 at next level, right associativity) : runner_scope.
Notation "c1 ;; c2" := (bind c1 (fun _ => c2))
  (at level 61, right associativity) : runner_scope.
Local Open Scope runner_scope.

Definition trace_of {A} (o : outcome A) : list Event :=
  match o with Done _ _ tr => tr | Undefined => [] end.

Definition world_of {A} (w0 : World) (o : outcome A) : World :=
  match o with Done _ w _ => w | Undefined => w0 end.

(** ** World updates *)

Definition set_self (a : MyApplication) (w : World) : World :=
  mkWorld a (is_registered w) (next_object w) (toplevel_of w)
          (connections w) (visible w).

Definition set_registered (w : World) : World :=
  mkWorld (self w) true (next_object w) (toplevel_of w)
          (connections w) (visible w).

Definition bump_object (w : World) : World :=
  mkWorld (self w) (is_registered w) (S (next_object w)) (toplevel_of w)
          (connections w) (visible w).

Definition add_child (window view : nat) (w : World) : World :=
  mkWorld (self w) (is_registered w) (next_object w)
          ((view, window) :: toplevel_of w) (connections w) (visible w).

Definition add_connection (view : nat) (signal : string) (cb : callback)
    (w : World) : World :=
  mkWorld (self w) (is_registered w) (next_object w) (toplevel_of w)
          (connections w ++ [(view, signal, cb)]) (visible w).

Definition add_visible (x : widget) (w : World) : World :=
  mkWorld (self w) (is_registered w) (next_object w) (toplevel_of w)
          (connections w) (x :: visible w).

Definition widget_eqb (a b : widget) : bool :=
  match a, b with
  | GtkWindow i, GtkWindow j => Nat.eqb i j
  | FlView i, FlView j => Nat.eqb i j
  | _, _ => false
  end.

Definition is_visible (x : widget) (w : World) : bool :=
  existsb (widget_eqb x) (visible w).

(** ** Toolkit calls *)

Definition fresh_object : M nat :=
  w <- get ;; modify bump_object ;; ret (next_object w).

Definition gtk_application_window_new : M nat :=
  window <- fresh_object ;;
  emit (c_gtk_application_window_new window) ;; ret window.

Definition gtk_window_set_title (window : nat) (title : string) : M unit :=
  emit (c_gtk_window_set_title window title).

Definition gtk_window_set_default_size (window : nat) (width height : Z)
    : M unit :=
  emit (c_gtk_window_set_default_size window width height).

Definition g_file_read_link (env : Env) (path : string) : M (option string) :=
  emit (c_g_file_read_link path) ;; ret (read_link env path).

(** [g_file_test (path, G_FILE_TEST_EXISTS)]. *)
Definition g_file_test (env : Env) (path : string) : M bool :=
  emit (c_g_file_test path) ;; ret (file_exists env path).

(** The image, or the message of the [GError] that was set. *)
Definition gdk_pixbuf_new_from_file (env : Env) (path : string)
    : M (GdkPixbuf + string) :=
  emit (c_gdk_pixbuf_new_from_file path) ;; ret (load_pixbuf env path).

Definition gtk_window_set_icon (window : nat) (icon : GdkPixbuf) : M unit :=
  emit (c_gtk_window_set_icon window icon).

Definition g_object_unref (icon : GdkPixbuf) : M unit :=
  emit (c_g_object_unref icon).

Definition g_warning (message : string) : M unit :=
  emit (c_g_warning message).

Definition fl_dart_project_new : M nat :=
  project <- fresh_object ;;
  emit (c_fl_dart_project_new project) ;; ret project.

Definition fl_dart_project_set_dart_entrypoint_arguments
    (project : nat) (argv : option strv) : M unit :=
  emit (c_fl_dart_project_set_dart_entrypoint_arguments project argv).

Definition fl_view_new (project : nat) : M nat :=
  view <- fresh_object ;;
  emit (c_fl_view_new view project) ;; ret view.

Definition fl_view_set_background_color (view : nat)
    (color : option GdkRGBA) : M unit :=
  emit (c_fl_view_set_background_color view color).

Definition gtk_widget_show (x : widget) : M unit :=
  emit (c_gtk_widget_show x) ;; modify (add_visible x).

Definition gtk_container_add (window view : nat) : M unit :=
  emit (c_gtk_container_add window view) ;; modify (add_child window view).

Fixpoint container_of (view : nat) (l : list (nat * nat)) : option nat :=
  match l with
  | [] => None
  | (v, window) :: l' =>
      if Nat.eqb v view then Some window else container_of view l'
  end.

(** The topmost ancestor: the window a view was added to, the widget itself
    when it has no parent. *)
Definition gtk_widget_get_toplevel (x : widget) : M widget :=
  emit (c_gtk_widget_get_toplevel x) ;;
  w <- get ;;
  ret match x with
      | FlView view =>
          match container_of view (toplevel_of w) with
          | Some window => GtkWindow window
          | None => x
          end
      | GtkWindow _ => x
      end.

Definition g_signal_connect_swapped (view : nat) (signal : string)
    (cb : callback) : M unit :=
  emit (c_g_signal_connect_swapped view signal cb) ;;
  modify (add_connection view signal cb).

Definition gtk_widget_realize (view : nat) : M unit :=
  emit (c_gtk_widget_realize view).

Definition fl_register_plugins (view : nat) : M unit :=
  emit (c_fl_register_plugins view).

Definition gtk_widget_grab_focus (view : nat) : M unit :=
  emit (c_gtk_widget_grab_focus view).

(** ** [gdk_rgba_parse] on hexadecimal notations

    GDK hands a specification that starts with [#] to Pango: [#rgb],
    [#rrggbb], [#rrrgggbbb] and [#rrrrggggbbbb], each channel widened to 16
    bits, alpha opaque.  The other notations (colour names, [rgb()],
    [rgba()]) are not used by the runner and are not modelled: [None]. *)

Definition hex_digit (c : ascii) : option Z :=
  let n := Z.of_nat (nat_of_ascii c) in
  if ((48 <=? n) && (n <=? 57))%Z then Some (n - 48)%Z
  else if ((97 <=? n) && (n <=? 102))%Z then Some (n - 87)%Z
  else if ((65 <=? n) && (n <=? 70))%Z then Some (n - 55)%Z
  else None.

Fixpoint hex (digits : list ascii) (acc : Z) : option Z :=
  match digits with
  | [] => Some acc
  | c :: rest =>
      match hex_digit c with
      | Some d => hex rest (acc * 16 + d)%Z
      | None => None
      end
  end.

Definition widen (len : nat) (v : Z) : Z :=
  match len with
  | 1%nat => Z.lor (Z.lor (Z.shiftl v 12) (Z.shiftl v 8))
                   (Z.lor (Z.shiftl v 4) v)
  | 2%nat => Z.lor (Z.shiftl v 8) v
  | 3%nat => Z.lor (Z.shiftl v 4) (Z.shiftr v 8)
  | _ => v
  end.

Definition gdk_rgba_parse (spec : string) : option GdkRGBA :=
  match list_ascii_of_string spec with
  | "#"%char :: digits =>
      let len := length digits in
      let n := (len / 3)%nat in
      if ((len mod 3 =? 0) && (1 <=? n) && (n <=? 4))%nat then
        match hex (firstn n digits) 0,
              hex (firstn n (skipn n digits)) 0,
              hex (skipn (2 * n) digits) 0 with
        | Some r, Some g, Some b =>
            Some (mkRGBA (widen n r) (widen n g) (widen n b) 65535)
        | _, _, _ => None
        end
      else None
  | _ => None
  end.

(** ** The application object's field *)

Definition load_dart_entrypoint_arguments : M (option strv) :=
  w <- get ;; ret (dart_entrypoint_arguments (self w)).

Definition assign_dart_entrypoint_arguments (v : option strv) : M unit :=
  emit (store_dart_entrypoint_arguments v) ;;
  modify (set_self (mkApp v)).

(** [*arguments + k]: the vector that starts [k] entries further.  The
    terminator is entry [length argv]; past it there is no vector. *)
Definition strv_offset (argv : strv) (k : nat) : option strv :=
  if (k <=? length argv)%nat then Some (skipn k argv) else None.

(** A deep copy; [nullptr] is copied to [nullptr]. *)
Definition g_strdupv (v : option strv) : M (option strv) :=
  emit (c_g_strdupv v) ;; ret v.

Definition g_strfreev (v : strv) : M unit := emit (c_g_strfreev v).

(** [g_clear_pointer (&self->dart_entrypoint_arguments, destroy)]: does
    nothing on [nullptr]; otherwise nulls the field and destroys what it
    pointed to. *)
Definition g_clear_pointer_dart_entrypoint_arguments
    (destroy : strv -> M unit) : M unit :=
  p <- load_dart_entrypoint_arguments ;;
  match p with
  | Some v => assign_dart_entrypoint_arguments None ;; destroy v
  | None => ret tt
  end.

(** ** The handlers of [my_application.cc] *)

Section Runner.

Context {paths : GLibPaths}.

(** Called when first Flutter frame received. *)
Definition first_frame_cb (view : nat) : M unit :=
  top <- gtk_widget_get_toplevel (FlView view) ;;
  gtk_widget_show top.

(** Implements [GApplication::activate]. *)
Definition my_application_activate (env : Env) : M unit :=
  window <- gtk_application_window_new ;;
  gtk_window_set_title window "Captioner" ;;
  gtk_window_set_default_size window 1280 720 ;;
  exe_path <- g_file_read_link env "/proc/self/exe" ;;
  match exe_path with
  | Some exe_path =>
      let exe_dir := g_path_get_dirname exe_path in
      let bundled_icon_path :=
        g_build_filename exe_dir ["data"; "captioner.png"] in
      found <- g_file_test env bundled_icon_path ;;
      let icon_path :=
        if negb found
        then g_build_filename exe_dir
               [".."; ".."; ".."; "linux"; "runner"; "resources";
                "app_icon.png"]
        else bundled_icon_path in
      icon <- gdk_pixbuf_new_from_file env icon_path ;;
      match icon with
      | inl icon =>
          gtk_window_set_icon window icon ;;
          g_object_unref icon
      | inr message =>
          g_warning ("Failed to load window icon from " ++ icon_path
                     ++ ": " ++ message)
      end
  | None => ret tt
  end ;;
  project <- fl_dart_project_new ;;
  argv <- load_dart_entrypoint_arguments ;;
  fl_dart_project_set_dart_entrypoint_arguments project argv ;;
  view <- fl_view_new project ;;
  let background_color := gdk_rgba_parse "#000000" in
  fl_view_set_background_color view background_color ;;
  gtk_widget_show (FlView view) ;;
  gtk_container_add window view ;;
  g_signal_connect_swapped view "first-frame" First_frame_cb ;;
  gtk_widget_realize view ;;
  fl_register_plugins view ;;
  gtk_widget_grab_focus view.

(** Implements [GApplication::startup]. *)
Definition my_application_startup : M unit := emit c_parent_startup.

(** Implements [GApplication::shutdown]. *)
Definition my_application_shutdown : M unit := emit c_parent_shutdown.

(** Implements [GObject::dispose]. *)
Definition my_application_dispose : M unit :=
  g_clear_pointer_dart_entrypoint_arguments g_strfreev ;;
  emit c_parent_dispose.

Definition my_application_init : M unit := ret tt.

(** [g_application_register (application, nullptr, &error)]: the message of
    the error, or [None] when it returns [TRUE].  An application that is
    already registered stays so; the first registration runs the class's
    [startup], which [my_application_class_init] set to
    [my_application_startup]. *)
Definition g_application_register (env : Env) : M (option string) :=
  emit c_g_application_register ;;
  w <- get ;;
  if is_registered w then ret None
  else match register_error env with
       | Some message => ret (Some message)
       | None => modify set_registered ;; my_application_startup ;; ret None
       end.

(** [g_application_activate]: runs the class's [activate], which
    [my_application_class_init] set to [my_application_activate]. *)
Definition g_application_activate (env : Env) : M unit :=
  emit c_g_application_activate ;;
  my_application_activate env.

(** Implements [GApplication::local_command_line]; the result is the
    returned [gboolean] and what was stored in [*exit_status]. *)
Definition my_application_local_command_line (env : Env) (arguments : strv)
    : M (bool * Z) :=
  match strv_offset arguments 1 with
  | None => undefined
  | Some rest =>
      copy <- g_strdupv (Some rest) ;;
      assign_dart_entrypoint_arguments copy ;;
      error <- g_application_register env ;;
      match error with
      | Some message =>
          g_warning ("Failed to register: " ++ message) ;;
          ret (true, 1%Z)
      | None =>
          g_application_activate env ;;
          ret (true, 0%Z)
      end
  end.

(** The signal machinery: the handlers connected to a signal of a view run
    in the order of their connection; a connection stays until it is
    disconnected, and the runner never disconnects. *)
Definition run_callback (cb : callback) (view : nat) : M unit :=
  match cb with First_frame_cb => first_frame_cb view end.

Fixpoint run_handlers (view : nat) (signal : string)
    (l : list (nat * string * callback)) : M unit :=
  match l with
  | [] => ret tt
  | (v, s, cb) :: l' =>
      (if Nat.eqb v view && String.eqb s signal
       then run_callback cb view else ret tt) ;;
      run_handlers view signal l'
  end.

Definition g_signal_emit (view : nat) (signal : string) : M unit :=
  w <- get ;; run_handlers view signal (connections w).


(** The operations of the application object: the virtual functions
    installed by [my_application_class_init], the instance initialiser and
    the callback. *)
Inductive operation : Type :=
| Op_activate
| Op_local_command_line (arguments : strv)
| Op_startup
| Op_shutdown
| Op_dispose
| Op_init
| Op_first_frame_cb (view : nat).

Definition run_operation (env : Env) (op : operation) : M unit :=
  match op with
  | Op_activate => my_application_activate env
  | Op_local_command_line arguments =>
      my_application_local_command_line env arguments ;; ret tt
  | Op_startup => my_application_startup
  | Op_shutdown => my_application_shutdown
  | Op_dispose => my_application_dispose
  | Op_init => my_application_init
  | Op_first_frame_cb view => first_frame_cb view
  end.

End Runner.

(** ** Observations on traces *)

Definition entrypoint_arguments_of (e : Event) : list (option strv) :=
  match e with
  | c_fl_dart_project_set_dart_entrypoint_arguments _ argv => [argv]
  | _ => []
  end.

(** The argument vectors handed to the Flutter engine, in order. *)
Definition entrypoint_arguments_passed (tr : list Event)
    : list (option strv) :=
  flat_map entrypoint_arguments_of tr.

Definition stores_of (e : Event) : list (option strv) :=
  match e with store_dart_entrypoint_arguments v => [v] | _ => [] end.

(** The values stored to [self->dart_entrypoint_arguments], in order. *)
Definition stores (tr : list Event) : list (option strv) :=
  flat_map stores_of tr.

Definition warnings_of (e : Event) : list string :=
  match e with c_g_warning m => [m] | _ => [] end.

Definition warnings (tr : list Event) : list string :=
  flat_map warnings_of tr.

Definition freed_of (e : Event) : list strv :=
  match e with c_g_strfreev v => [v] | _ => [] end.

Definition freed (tr : list Event) : list strv := flat_map freed_of tr.

(** The paths given to the file system (existence tests and image loads;
    the link of the executable itself is not a candidate path). *)
Definition icon_paths_of (e : Event) : list string :=
  match e with
  | c_g_file_test p => [p]
  | c_gdk_pixbuf_new_from_file p => [p]
  | _ => []
  end.

Definition icon_paths_consulted (tr : list Event) : list string :=
  flat_map icon_paths_of tr.

Definition icons_loaded_of (e : Event) : list string :=
  match e with c_gdk_pixbuf_new_from_file p => [p] | _ => [] end.

Definition icons_loaded (tr : list Event) : list string :=
  flat_map icons_loaded_of tr.

Definition icons_set_of (e : Event) : list (nat * GdkPixbuf) :=
  match e with c_gtk_window_set_icon w i => [(w, i)] | _ => [] end.

Definition icons_set (tr : list Event) : list (nat * GdkPixbuf) :=
  flat_map icons_set_of tr.

Definition backgrounds_of (e : Event) : list (nat * option GdkRGBA) :=
  match e with c_fl_view_set_background_color v c => [(v, c)] | _ => [] end.

Definition backgrounds (tr : list Event) : list (nat * option GdkRGBA) :=
  flat_map backgrounds_of tr.

Definition shown_of (e : Event) : list widget :=
  match e with c_gtk_widget_show x => [x] | _ => [] end.

Definition shown (tr : list Event) : list widget := flat_map shown_of tr.

(** ** A reference platform for concrete runs

    Paths are joined with [/]; the directory of a path is what precedes its
    last [/]. *)

Fixpoint join_path (dir : string) (parts : list string) : string :=
  match parts with
  | [] => dir
  | p :: parts' => join_path (dir ++ "/" ++ p) parts'
  end.

Fixpoint dirname_aux (s : string) : option string :=
  match s with
  | EmptyString => None
  | String c s' =>
      match dirname_aux s' with
      | Some d => Some (String c d)
      | None => if Ascii.eqb c "/" then Some EmptyString else None
      end
  end.

Definition simple_dirname (s : string) : string :=
  match dirname_aux s with
  | Some EmptyString => "/"
  | Some d => d
  | None => "."
  end.

#[export] Instance simple_paths : GLibPaths := {
  g_path_get_dirname := simple_dirname;
  g_build_filename := join_path
}.

Definition world0 : World := mkWorld (mkApp None) false 0 [] [] [].

(** An installed bundle: the executable resolves, the bundled icon exists
    and loads, registration succeeds. *)
Definition env_bundle : Env :=
  mkEnv (fun _ => Some "/opt/captioner/captioner")
        (fun p => String.eqb p "/opt/captioner/data/captioner.png")
        (fun p => inl (Pixbuf p))
        None.

(** A development tree: no bundled icon, and the fallback does not load. *)
Definition env_dev_broken : Env :=
  mkEnv (fun _ => Some "/src/build/linux/x64/debug/bundle/captioner")
        (fun _ => false)
        (fun _ => inr "No such file or directory")
        None.

(** The link of the executable cannot be read. *)
Definition env_no_proc : Env :=
  mkEnv (fun _ => None) (fun _ => false) (fun p => inl (Pixbuf p)) None.

(** Registration with the session fails. *)
Definition env_no_session : Env :=
  mkEnv (fun _ => Some "/opt/captioner/captioner")
        (fun _ => true)
        (fun p => inl (Pixbuf p))
        (Some "Cannot autolaunch D-Bus").

(** ** The behaviour the specification describes, for comparison *)

Section Described.

Context {paths : GLibPaths}.

(** [data/captioner.png] next to the executable. *)
Definition bundled_icon_path (exe : string) : string :=
  g_build_filename (g_path_get_dirname exe) ["data"; "captioner.png"].

(** [../../../linux/runner/resources/app_icon.png] from the executable's
    directory. *)
Definition dev_icon_path (exe : string) : string :=
  g_build_filename (g_path_get_dirname exe)
    [".."; ".."; ".."; "linux"; "runner"; "resources"; "app_icon.png"].

(** The bundled location if a file exists there, otherwise the fallback. *)
Definition chosen_icon_path (env : Env) (exe : string) : string :=
  if file_exists env (bundled_icon_path exe)
  then bundled_icon_path exe else dev_icon_path exe.

Definition icon_warning (path message : string) : string :=
  "Failed to load window icon from " ++ path ++ ": " ++ message.

Definition opaque_black : GdkRGBA := mkRGBA 0 0 0 65535.

(** Window construction, up to the resolution of the executable. *)
Definition window_setup (window : nat) : list Event :=
  [c_gtk_application_window_new window;
   c_gtk_window_set_title window "Captioner";
   c_gtk_window_set_default_size window 1280 720;
   c_g_file_read_link "/proc/self/exe"].

(** Project and view creation, signal connection, plugin registration. *)
Definition view_setup (window : nat) (argv : option strv) : list Event :=
  let project := S window in
  let view := S (S window) in
  [c_fl_dart_project_new project;
   c_fl_dart_project_set_dart_entrypoint_arguments project argv;
   c_fl_view_new view project;
   c_fl_view_set_background_color view (Some opaque_black);
   c_gtk_widget_show (FlView view);
   c_gtk_container_add window view;
   c_g_signal_connect_swapped view "first-frame" First_frame_cb;
   c_gtk_widget_realize view;
   c_fl_register_plugins view;
   c_gtk_widget_grab_focus view].

(** What the icon block does, by the answers of the environment. *)
Definition icon_setup (env : Env) (window : nat) : list Event :=
  match read_link env "/proc/self/exe" with
  | None => []
  | Some exe =>
      c_g_file_test (bundled_icon_path exe)
      :: c_gdk_pixbuf_new_from_file (chosen_icon_path env exe)
      :: match load_pixbuf env (chosen_icon_path env exe) with
         | inl icon => [c_gtk_window_set_icon window icon;
                        c_g_object_unref icon]
         | inr message =>
             [c_g_warning (icon_warning (chosen_icon_path env exe) message)]
         end
  end.

(** The world after an activation: three new objects (window, project,
    view), the view inside the window, shown, and connected. *)
Definition activated (w : World) : World :=
  let window := next_object w in
  let view := S (S window) in
  mkWorld (self w) (is_registered w) (S (S (S window)))
          ((view, window) :: toplevel_of w)
          (connections w ++ [(view, "first-frame", First_frame_cb)])
          (FlView view :: visible w).

(** Does [g_application_register] fail, and with which message. *)
Definition registration_error (env : Env) (w : World) : option string :=
  if is_registered w then None else register_error env.

End Described.

(** Every object a world mentions was created before: its name is below
    [next_object]. *)
Definition widget_id (x : widget) : nat :=
  match x with GtkWindow id => id | FlView id => id end.

Definition wf_world (w : World) : Prop :=
  Forall (fun c => fst (fst c) < next_object w)%nat (connections w)
  /\ Forall (fun p => fst p < next_object w)%nat (toplevel_of w)
  /\ Forall (fun x => widget_id x < next_object w)%nat (visible w).

Definition activations_of (e : Event) : list unit :=
  match e with c_g_application_activate => [tt] | _ => [] end.

(** How many times the trace asks the toolkit to activate. *)
Definition activations (tr : list Event) : nat :=
  length (flat_map activations_of tr).

(** The events of the icon block of [my_application_activate]. *)
Definition icon_block_event (e : Event) : bool :=
  match e with
  | c_g_file_test _ | c_gdk_pixbuf_new_from_file _
  | c_gtk_window_set_icon _ _ | c_g_object_unref _ | c_g_warning _ => true
  | _ => false
  end.

Definition outside_icon_block (tr : list Event) : list Event :=
  filter (fun e => negb (icon_block_event e)) tr.

(** ** The object over its life

    What reaches the application object from outside: the toolkit calling
    one of its operations, or a view emitting [first-frame].  The callback
    is [static] and is reached only through the signal; a command line is
    the vector of [g_application_run], which begins with the binary. *)

Inductive stimulus : Type :=
| Call (env : Env) (op : operation)
| First_frame (view : nat).

Definition admissible (s : stimulus) : bool :=
  match s with
  | Call _ (Op_local_command_line []) => false
  | Call _ (Op_first_frame_cb _) => false
  | _ => true
  end.

Section Lifecycle.

Context {paths : GLibPaths}.

Definition react (s : stimulus) : M unit :=
  match s with
  | Call env op => run_operation env op
  | First_frame view => g_signal_emit view "first-frame"
  end.

Fixpoint react_all (l : list stimulus) : M unit :=
  match l with
  | [] => ret tt
  | s :: l' => react s ;; react_all l'
  end.

End Lifecycle.

(** The vector the field holds after a stimulus, from what it held. *)
Definition field_after (s : stimulus) (held : option strv) : option strv :=
  match s with
  | Call _ (Op_local_command_line (_ :: rest)) => Some rest
  | Call _ Op_dispose => None
  | _ => held
  end.

Definition field_after_all (l : list stimulus) (held : option strv)
    : option strv :=
  fold_left (fun h s => field_after s h) l held.

(** The vectors disposals find in the field, in order. *)
Fixpoint held_at_disposals (l : list stimulus) (held : option strv)
    : list strv :=
  match l with
  | [] => []
  | s :: l' =>
      match s, held with
      | Call _ Op_dispose, Some v => [v]
      | _, _ => []
      end ++ held_at_disposals l' (field_after s held)
  end.

(** The tails of the command lines handled, in order. *)
Definition command_line_tails (l : list stimulus) : list (option strv) :=
  flat_map (fun s => match s with
                     | Call _ (Op_local_command_line (_ :: rest)) =>
                         [Some rest]
                     | _ => []
                     end) l.

Definition is_first_frame (s : stimulus) : bool :=
  match s with First_frame _ => true | Call _ _ => false end.

Definition copies_of (e : Event) : list (option strv) :=
  match e with c_g_strdupv v => [v] | _ => [] end.

(** The vectors copied by [g_strdupv], in order. *)
Definition copies (tr : list Event) : list (option strv) :=
  flat_map copies_of tr.

Definition unrefs_of (e : Event) : list GdkPixbuf :=
  match e with c_g_object_unref i => [i] | _ => [] end.

(** The images released by [g_object_unref], in order. *)
Definition unrefs (tr : list Event) : list GdkPixbuf :=
  flat_map unrefs_of tr.

Definition windows_created_of (e : Event) : list nat :=
  match e with c_gtk_application_window_new w => [w] | _ => [] end.

Definition windows_created (tr : list Event) : list nat :=
  flat_map windows_created_of tr.

(** The views that have a handler connected. *)
Definition view_ids (w : World) : list nat :=
  map (fun c => fst (fst c)) (connections w).

Definition connected (view : nat) (w : World) : bool :=
  existsb (Nat.eqb view) (view_ids w).

(** How many connections of a list answer a signal of a view. *)
Definition matching (view : nat) (signal : string)
    (l : list (nat * string * callback)) : nat :=
  length (filter (fun c => Nat.eqb (fst (fst c)) view
                           && String.eqb (snd (fst c)) signal) l).

Definition toplevel_widget (view : nat) (w : World) : widget :=
  match container_of view (toplevel_of w) with
  | Some window => GtkWindow window
  | None => FlView view
  end.

Fixpoint show_times (k : nat) (x : widget) (w : World) : World :=
  match k with
  | O => w
  | S k' => show_times k' x (add_visible x w)
  end.

(** The worlds the object can be in: every name was given out before, a
    view has at most one connection, and every connection is a
    [first-frame] connection of a view that sits in a window. *)
Definition coherent (w : World) : Prop :=
  wf_world w
  /\ Forall (fun p => snd p < next_object w)%nat (toplevel_of w)
  /\ NoDup (view_ids w)
  /\ Forall (fun c => snd (fst c) = "first-frame"
                      /\ exists window,
                           container_of (fst (fst c)) (toplevel_of w)
                           = Some window)
            (connections w).

(** Stimuli that neither store to the field nor clear it. *)
Definition keeps_field (s : stimulus) : bool :=
  match s with
  | Call _ (Op_local_command_line _) => false
  | Call _ Op_dispose => false
  | Call _ (Op_first_frame_cb _) => false
  | _ => true
  end.

Definition is_activate_call (s : stimulus) : bool :=
  match s with Call _ Op_activate => true | _ => false end.

(** The activations the toolkit asks for directly. *)
Definition activate_calls (l : list stimulus) : nat :=
  length (filter is_activate_call l).

(** What one stimulus frees: disposal, the vector it finds. *)
Definition freed_by (s : stimulus) (held : option strv) : list strv :=
  match s, held with
  | Call _ Op_dispose, Some v => [v]
  | _, _ => []
  end.

(** A session on the reference platform: the command line, a second
    activation in a tree without icons, the first frame of the first view,
    shutdown, disposal. *)
Definition session : list stimulus :=
  [Call env_bundle (Op_local_command_line ["captioner"; "--lang"; "en"]);
   Call env_dev_broken Op_activate;
   First_frame 2;
   Call env_bundle Op_shutdown;
   Call env_bundle Op_dispose].

(** The same without the first frame. *)
Definition session_unrendered : list stimulus :=
  [Call env_bundle (Op_local_command_line ["captioner"; "--lang"; "en"]);
   Call env_dev_broken Op_activate;
   Call env_bundle Op_dispose].

(** What lies between the command line and the disposal. *)
Definition session_middle : list stimulus :=
  [Call env_dev_broken Op_activate; First_frame 2;
   Call env_bundle Op_shutdown].

(** The world after two activations from the initial one: windows 0 and 3
    with views 2 and 5. *)
Definition two_windows : World :=
  mkWorld (mkApp (Some ["--lang"; "en"])) true 6
          [(5, 3); (2, 0)]%nat
          [(2%nat, "first-frame", First_frame_cb);
           (5%nat, "first-frame", First_frame_cb)]
          [FlView 5; FlView 2].

(** * Properties *)

Section Properties.

Context {paths : GLibPaths}.

(** Unfolding of the monad and of the toolkit calls. *)
Create HintDb runner.
#[local] Hint Unfold bind ret emit get modify undefined fresh_object
  gtk_application_window_new gtk_window_set_title
  gtk_window_set_default_size g_file_read_link g_file_test
  gdk_pixbuf_new_from_file gtk_window_set_icon g_object_unref g_warning
  fl_dart_project_new fl_dart_project_set_dart_entrypoint_arguments
  fl_view_new fl_view_set_background_color gtk_widget_show
  gtk_container_add gtk_widget_get_toplevel g_signal_connect_swapped
  gtk_widget_realize fl_register_plugins gtk_widget_grab_focus
  load_dart_entrypoint_arguments assign_dart_entrypoint_arguments
  g_strdupv g_strfreev g_clear_pointer_dart_entrypoint_arguments : runner.

Ltac run := autounfold with runner; cbn.

Lemma activate_run (env : Env) (w : World) :
  my_application_activate env w =
  Done tt (activated w)
       (window_setup (next_object w) ++ icon_setup env (next_object w)
        ++ view_setup (next_object w) (dart_entrypoint_arguments (self w))).
Proof.
  unfold my_application_activate, icon_setup, chosen_icon_path,
    bundled_icon_path, dev_icon_path, icon_warning.
  run.
  destruct (read_link env "/proc/self/exe") as [exe|]; cbn.
  - destruct (file_exists env _); cbn;
      destruct (load_pixbuf env _) as [icon|message]; reflexivity.
  - reflexivity.
Qed.

Lemma command_line_run (env : Env) (binary : string) (rest : strv)
    (w : World) :
  my_application_local_command_line env (binary :: rest) w =
  let stored := set_self (mkApp (Some rest)) w in
  let prefix := [c_g_strdupv (Some rest);
                 store_dart_entrypoint_arguments (Some rest);
                 c_g_application_register] in
  match registration_error env w with
  | Some message =>
      Done (true, 1%Z) stored
           (prefix
            ++ [c_g_warning ("Failed to register: " ++ message)%string])
  | None =>
      let w1 := if is_registered w then stored else set_registered stored in
      Done (true, 0%Z) (activated w1)
           (prefix
            ++ (if is_registered w then [] else [c_parent_startup])
            ++ c_g_application_activate
               :: trace_of (my_application_activate env w1))
  end.
Proof.
  unfold my_application_local_command_line, registration_error,
    g_application_register, g_application_activate, my_application_startup.
  cbn [strv_offset length Nat.leb skipn].
  autounfold with runner.
  cbn -[my_application_activate String.append].
  destruct (is_registered w) eqn:Hreg.
  - rewrite !activate_run. cbn. now rewrite app_nil_r.
  - destruct (register_error env) as [message|].
    + reflexivity.
    + cbn -[my_application_activate String.append].
      rewrite !activate_run. cbn. now rewrite app_nil_r.
Qed.

Lemma register_result (env : Env) (w : World) :
  exists w' tr,
    g_application_register env w = Done (registration_error env w) w' tr.
Proof.
  unfold g_application_register, registration_error, my_application_startup.
  run. destruct (is_registered w); [eauto|].
  destruct (register_error env); cbn; eauto.
Qed.

Ltac icon_cases env :=
  unfold icon_setup;
  destruct (read_link env "/proc/self/exe") as [?exe|];
  [destruct (load_pixbuf env _) as [?icon|?message]|].

(** C1. The command-line handler stores the arguments after the binary
    path, unchanged and in order; the activation it triggers, and every
    later activation, hands exactly that stored vector to the Flutter
    project as its entrypoint arguments. *)
Theorem C1_arguments_forwarded (env : Env) (binary : string) (rest : strv)
    (w : World) :
  exists r w' tr,
    my_application_local_command_line env (binary :: rest) w = Done r w' tr
    /\ dart_entrypoint_arguments (self w') = Some rest
    /\ stores tr = [Some rest]
    /\ entrypoint_arguments_passed tr =
       match registration_error env w with
       | None => [Some rest]
       | Some _ => []
       end
    /\ forall env' : Env,
         exists w'' tr',
           my_application_activate env' w' = Done tt w'' tr'
           /\ entrypoint_arguments_passed tr' = [Some rest].
Proof.
  rewrite command_line_run. cbn zeta.
  destruct (registration_error env w) as [message|].
  - do 3 eexists. split; [reflexivity|]. repeat split.
    intros env'. rewrite activate_run. do 2 eexists.
    split; [reflexivity|]. icon_cases env'; reflexivity.
  - do 3 eexists. split; [reflexivity|].
    rewrite activate_run.
    split; [destruct (is_registered w); reflexivity|].
    split; [destruct (is_registered w); icon_cases env; reflexivity|].
    split; [destruct (is_registered w); icon_cases env; reflexivity|].
    intros env'. rewrite activate_run. do 2 eexists.
    split; [reflexivity|].
    destruct (is_registered w); icon_cases env'; reflexivity.
Qed.

(** C2. The command-line handler reports the command line as handled in
    both cases.  When registration fails it logs the warning, does not
    activate and sets the exit status to 1; otherwise it asks for the
    activation, which runs [my_application_activate], logs no registration
    warning and sets the exit status to 0. *)
Theorem C2_exit_status (env : Env) (binary : string) (rest : strv)
    (w : World) :
  exists w' tr,
    my_application_local_command_line env (binary :: rest) w =
    Done (true, match registration_error env w with
                | Some _ => 1%Z
                | None => 0%Z
                end) w' tr
    /\ match registration_error env w with
       | Some message =>
           warnings tr = [("Failed to register: " ++ message)%string]
           /\ activations tr = 0%nat
       | None =>
           activations tr = 1%nat
           /\ exists w1 before during,
               tr = before ++ c_g_application_activate :: during
               /\ warnings before = []
               /\ my_application_activate env w1 = Done tt w' during
       end.
Proof.
  rewrite command_line_run. cbn zeta.
  destruct (registration_error env w) as [message|].
  - do 2 eexists. split; [reflexivity|]. split; reflexivity.
  - rewrite activate_run. cbn [trace_of].
    do 2 eexists. split; [reflexivity|]. split.
    + destruct (is_registered w); icon_cases env; reflexivity.
    + eexists. exists
        ([c_g_strdupv (Some rest);
          store_dart_entrypoint_arguments (Some rest);
          c_g_application_register]
         ++ (if is_registered w then [] else [c_parent_startup])).
      eexists. split; [|split].
      * rewrite <- !app_assoc. reflexivity.
      * destruct (is_registered w); reflexivity.
      * rewrite activate_run. reflexivity.
Qed.

(** C3. When the executable resolves, the only paths given to the file
    system are the bundled location (tested for existence) and the path
    that is loaded, which is the bundled location if a file exists there
    and the development-tree fallback otherwise. *)
Theorem C3_icon_path_choice (env : Env) (w : World) (exe : string) :
  read_link env "/proc/self/exe" = Some exe ->
  let exe_dir := g_path_get_dirname exe in
  let bundled := g_build_filename exe_dir ["data"; "captioner.png"] in
  let fallback :=
    g_build_filename exe_dir
      [".."; ".."; ".."; "linux"; "runner"; "resources"; "app_icon.png"] in
  let chosen := if file_exists env bundled then bundled else fallback in
  exists w' tr,
    my_application_activate env w = Done tt w' tr
    /\ icons_loaded tr = [chosen]
    /\ icon_paths_consulted tr = [bundled; chosen]
    /\ Forall (fun p => p = bundled \/ p = fallback)
              (icon_paths_consulted tr).
Proof.
  intros Hexe exe_dir bundled fallback chosen.
  rewrite activate_run. do 2 eexists. split; [reflexivity|].
  unfold icon_setup. rewrite Hexe.
  change (chosen_icon_path env exe) with chosen.
  change (bundled_icon_path exe) with bundled.
  assert (Hpaths : icon_paths_consulted
            (window_setup (next_object w)
             ++ (c_g_file_test bundled
                 :: c_gdk_pixbuf_new_from_file chosen
                 :: match load_pixbuf env chosen with
                    | inl icon =>
                        [c_gtk_window_set_icon (next_object w) icon;
                         c_g_object_unref icon]
                    | inr message =>
                        [c_g_warning (icon_warning chosen message)]
                    end)
             ++ view_setup (next_object w)
                  (dart_entrypoint_arguments (self w)))
          = [bundled; chosen]).
  { destruct (load_pixbuf env chosen); reflexivity. }
  split; [destruct (load_pixbuf env chosen); reflexivity|].
  split; [exact Hpaths|].
  rewrite Hpaths.
  constructor; [left; reflexivity|]. constructor; [|constructor].
  subst chosen. destruct (file_exists env bundled); [left|right]; reflexivity.
Qed.

(** C4, as amended.  Activation always completes, in a world that does not
    depend on the environment, and outside its icon block it makes the same
    calls whatever happens to the icon.  The only failure it reports is a
    failed load of the chosen icon: then it logs one warning and sets no
    icon; a loaded icon is set without a warning; an executable that does
    not resolve gives neither. *)
Theorem C4_icon_failure_is_not_fatal (env : Env) (w : World) :
  exists w' tr,
    my_application_activate env w = Done tt w' tr
    /\ w' = activated w
    /\ outside_icon_block tr =
       window_setup (next_object w)
       ++ view_setup (next_object w) (dart_entrypoint_arguments (self w))
    /\ (icons_set tr, warnings tr) =
       match read_link env "/proc/self/exe" with
       | None => ([], [])
       | Some exe =>
           match load_pixbuf env (chosen_icon_path env exe) with
           | inl icon => ([(next_object w, icon)], [])
           | inr message =>
               ([], [icon_warning (chosen_icon_path env exe) message])
           end
       end.
Proof.
  rewrite activate_run. do 2 eexists. split; [reflexivity|].
  split; [reflexivity|].
  split; icon_cases env; reflexivity.
Qed.

(** C5. One run of the command-line handler stores to the field exactly
    once (the copied arguments); disposal frees what the field holds and
    nulls it; every other operation of the object completes without a
    store and leaves the object as it was.  (An argument vector without
    even the binary path makes the handler read past the terminator.) *)
Theorem C5_argument_list_lifecycle (env : Env) (op : operation) (w : World) :
  match op with
  | Op_local_command_line [] => run_operation env op w = Undefined
  | Op_local_command_line (_ :: rest) =>
      exists w' tr,
        run_operation env op w = Done tt w' tr
        /\ stores tr = [Some rest]
        /\ dart_entrypoint_arguments (self w') = Some rest
  | Op_dispose =>
      exists w' tr,
        run_operation env op w = Done tt w' tr
        /\ dart_entrypoint_arguments (self w') = None
        /\ (stores tr, freed tr) =
           match dart_entrypoint_arguments (self w) with
           | Some v => ([None], [v])
           | None => ([], [])
           end
  | _ =>
      exists w' tr,
        run_operation env op w = Done tt w' tr
        /\ stores tr = []
        /\ self w' = self w
  end.
Proof.
  destruct op as [|arguments| | | | |view]; cbn [run_operation].
  - rewrite activate_run. do 2 eexists. split; [reflexivity|].
    split; [icon_cases env|]; reflexivity.
  - destruct arguments as [|binary rest]; [reflexivity|].
    unfold bind at 1. rewrite command_line_run. cbn zeta.
    rewrite activate_run. cbn [trace_of].
    destruct (registration_error env w) as [message|]; cbn.
    + do 2 eexists. split; [reflexivity|]. split; reflexivity.
    + do 2 eexists. split; [reflexivity|].
      split; destruct (is_registered w); [icon_cases env| icon_cases env| |];
        reflexivity.
  - do 2 eexists. split; [reflexivity|]. split; reflexivity.
  - do 2 eexists. split; [reflexivity|]. split; reflexivity.
  - unfold my_application_dispose. run.
    destruct (dart_entrypoint_arguments (self w)) as [v|] eqn:Hfield; cbn;
      do 2 eexists; (split; [reflexivity|]); split;
      reflexivity || exact Hfield.
  - do 2 eexists. split; [reflexivity|]. split; reflexivity.
  - unfold first_frame_cb. run.
    do 2 eexists. split; [reflexivity|]. split; reflexivity.
Qed.

(** C7. Every activation sets the background of the view it creates
    exactly once, to what [gdk_rgba_parse] makes of the literal
    [#000000]: opaque black, whatever the environment and the world. *)
Theorem C7_background_is_opaque_black (env : Env) (w : World) :
  exists w' tr,
    my_application_activate env w = Done tt w' tr
    /\ backgrounds tr =
       [(S (S (next_object w)), gdk_rgba_parse "#000000")]
    /\ gdk_rgba_parse "#000000" = Some (mkRGBA 0 0 0 65535).
Proof.
  rewrite activate_run. do 2 eexists. split; [reflexivity|].
  split; [icon_cases env|]; reflexivity.
Qed.

(** C8. When the link of the executable cannot be read, activation makes
    no icon call at all: no path is tested or loaded, no icon is set and no
    warning is logged; window and view are set up as always. *)
Theorem C8_unresolved_executable_skips_icon (env : Env) (w : World) :
  read_link env "/proc/self/exe" = None ->
  exists w' tr,
    my_application_activate env w = Done tt w' tr
    /\ w' = activated w
    /\ tr = window_setup (next_object w)
            ++ view_setup (next_object w)
                 (dart_entrypoint_arguments (self w))
    /\ warnings tr = []
    /\ icons_set tr = []
    /\ icon_paths_consulted tr = [].
Proof.
  intros Hexe. rewrite activate_run. unfold icon_setup. rewrite Hexe.
  do 2 eexists. split; [reflexivity|]. repeat split.
Qed.

(** C9. On every argument vector that starts with the binary path, in
    every environment and world, the command-line handler finishes and
    returns [TRUE]. *)
Theorem C9_command_line_always_handled (env : Env) (binary : string)
    (rest : strv) (w : World) :
  exists exit_status w' tr,
    my_application_local_command_line env (binary :: rest) w
    = Done (true, exit_status) w' tr.
Proof.
  rewrite command_line_run. cbn zeta.
  destruct (registration_error env w); do 3 eexists; reflexivity.
Qed.

(** C10. The first disposal frees the stored vector, if there is one, and
    leaves the field null; a disposal after it changes nothing in the world,
    stores nothing and frees nothing. *)
Theorem C10_dispose_idempotent (w : World) :
  exists w1 tr1 tr2,
    my_application_dispose w = Done tt w1 tr1
    /\ dart_entrypoint_arguments (self w1) = None
    /\ freed tr1 = match dart_entrypoint_arguments (self w) with
                   | Some v => [v]
                   | None => []
                   end
    /\ my_application_dispose w1 = Done tt w1 tr2
    /\ freed tr2 = []
    /\ stores tr2 = [].
Proof.
  unfold my_application_dispose. run.
  destruct (dart_entrypoint_arguments (self w)) as [v|] eqn:Hfield; cbn.
  - do 3 eexists. split; [reflexivity|]. cbn. repeat split.
  - exists w. do 2 eexists. split; [reflexivity|].
    rewrite Hfield. cbn. repeat split.
Qed.

(** *** Signal emission after an activation *)


Lemma container_of_stale (view : nat) (l : list (nat * nat)) :
  Forall (fun p => fst p < view)%nat l -> container_of view l = None.
Proof.
  induction 1 as [|[v window] l Hlt _ IH]; [reflexivity|].
  cbn in *. replace (Nat.eqb v view) with false
    by (symmetry; apply Nat.eqb_neq; lia).
  exact IH.
Qed.




Lemma wf_world_activated (w : World) : wf_world w -> wf_world (activated w).
Proof.
  intros (Hconn & Htop & Hvis). unfold wf_world, activated. cbn.
  repeat split.
  - apply Forall_app. split.
    + eapply Forall_impl; [|exact Hconn]. cbn. intros; lia.
    + repeat constructor.
  - constructor; [cbn; lia|].
    eapply Forall_impl; [|exact Htop]. cbn. intros; lia.
  - constructor; [cbn; lia|].
    eapply Forall_impl; [|exact Hvis]. cbn. intros; lia.
Qed.



End Properties.

(** * Concrete runs on the reference platform *)

Lemma wf_world0 : wf_world world0.
Proof. repeat split; constructor. Qed.

(** An installed bundle started as [captioner --lang en]. *)
Example run_bundle :
  my_application_local_command_line env_bundle
    ["/opt/captioner/captioner"; "--lang"; "en"] world0
  = Done (true, 0%Z)
      (mkWorld (mkApp (Some ["--lang"; "en"])) true 3 [(2, 0)%nat]
               [(2%nat, "first-frame", First_frame_cb)] [FlView 2])
      [c_g_strdupv (Some ["--lang"; "en"]);
       store_dart_entrypoint_arguments (Some ["--lang"; "en"]);
       c_g_application_register; c_parent_startup;
       c_g_application_activate; c_gtk_application_window_new 0;
       c_gtk_window_set_title 0 "Captioner";
       c_gtk_window_set_default_size 0 1280 720;
       c_g_file_read_link "/proc/self/exe";
       c_g_file_test "/opt/captioner/data/captioner.png";
       c_gdk_pixbuf_new_from_file "/opt/captioner/data/captioner.png";
       c_gtk_window_set_icon 0 (Pixbuf "/opt/captioner/data/captioner.png");
       c_g_object_unref (Pixbuf "/opt/captioner/data/captioner.png");
       c_fl_dart_project_new 1;
       c_fl_dart_project_set_dart_entrypoint_arguments 1
         (Some ["--lang"; "en"]);
       c_fl_view_new 2 1;
       c_fl_view_set_background_color 2 (Some opaque_black);
       c_gtk_widget_show (FlView 2); c_gtk_container_add 0 2;
       c_g_signal_connect_swapped 2 "first-frame" First_frame_cb;
       c_gtk_widget_realize 2; c_fl_register_plugins 2;
       c_gtk_widget_grab_focus 2].
Proof. reflexivity. Qed.

(** A development tree whose fallback icon does not load either. *)
Example run_dev_broken :
  warnings (trace_of (my_application_activate env_dev_broken world0))
  = ["Failed to load window icon from /src/build/linux/x64/debug/bundle/../../../linux/runner/resources/app_icon.png: No such file or directory"].
Proof. reflexivity. Qed.

(** Without a session the handler warns, does not activate, exits with 1. *)
Example run_no_session :
  my_application_local_command_line env_no_session ["captioner"] world0
  = Done (true, 1%Z)
      (mkWorld (mkApp (Some [])) false 0 [] [] [])
      [c_g_strdupv (Some []); store_dart_entrypoint_arguments (Some []);
       c_g_application_register;
       c_g_warning "Failed to register: Cannot autolaunch D-Bus"].
Proof. reflexivity. Qed.

(** The handler reads entry 1 of the vector: with no entry 0 that is past
    the terminator. *)
Example run_empty_vector :
  my_application_local_command_line env_bundle [] world0 = Undefined.
Proof. reflexivity. Qed.

Example rgba_short_form :
  gdk_rgba_parse "#f80" = Some (mkRGBA 65535 34952 0 65535).
Proof. reflexivity. Qed.

(** C3 at the installed bundle. *)
Lemma C3_icon_path_choice_witness :
  read_link env_bundle "/proc/self/exe" = Some "/opt/captioner/captioner"
  /\ exists w' tr,
       my_application_activate env_bundle world0 = Done tt w' tr
       /\ icons_loaded tr = ["/opt/captioner/data/captioner.png"]
       /\ icon_paths_consulted tr =
          ["/opt/captioner/data/captioner.png";
           "/opt/captioner/data/captioner.png"]
       /\ Forall
            (fun p =>
               p = "/opt/captioner/data/captioner.png"
               \/ p = "/opt/captioner/../../../linux/runner/resources/app_icon.png")
            (icon_paths_consulted tr).
Proof.
  split; [reflexivity|].
  exact (@C3_icon_path_choice simple_paths env_bundle world0
           "/opt/captioner/captioner" eq_refl).
Defined.

(** C3 in a development tree: the fallback is the path that is loaded. *)
Example icon_path_dev :
  icon_paths_consulted
    (trace_of (my_application_activate env_dev_broken world0))
  = ["/src/build/linux/x64/debug/bundle/data/captioner.png";
     "/src/build/linux/x64/debug/bundle/../../../linux/runner/resources/app_icon.png"].
Proof. reflexivity. Qed.

(** C4 as stated fails: the command-line handler reports a failure that is
    not an icon load, the failed registration. *)
Lemma C4_registration_failure_is_reported :
  ~ (forall (env : Env) (arguments : strv) (w : World) (m : string),
        In m (warnings
                (trace_of
                   (my_application_local_command_line env arguments w))) ->
        exists path message, m = icon_warning path message).
Proof.
  intros H.
  destruct (H env_no_session ["captioner"] world0
              "Failed to register: Cannot autolaunch D-Bus"
              (or_introl eq_refl)) as (path & message & Heq).
  cbn in Heq. discriminate Heq.
Qed.


(** C8 where [/proc/self/exe] cannot be read. *)
Lemma C8_unresolved_executable_skips_icon_witness :
  read_link env_no_proc "/proc/self/exe" = None
  /\ exists w' tr,
       my_application_activate env_no_proc world0 = Done tt w' tr
       /\ w' = activated world0
       /\ tr = window_setup 0 ++ view_setup 0 None
       /\ warnings tr = []
       /\ icons_set tr = []
       /\ icon_paths_consulted tr = [].
Proof.
  split; [reflexivity|].
  exact (@C8_unresolved_executable_skips_icon simple_paths env_no_proc
           world0 eq_refl).
Defined.

(** * The object over its life *)

Section LifecycleProperties.

Context {paths : GLibPaths}.

Create HintDb toolkit.
#[local] Hint Unfold bind ret emit get modify undefined fresh_object
  gtk_widget_show gtk_widget_get_toplevel g_strfreev
  load_dart_entrypoint_arguments assign_dart_entrypoint_arguments
  g_clear_pointer_dart_entrypoint_arguments : toolkit.

(** The handlers of a signal run one after the other; each one is
    [first_frame_cb], which looks up the toplevel and shows it. *)
Lemma run_handlers_run (view : nat) (signal : string)
    (l : list (nat * string * callback)) (w : World) :
  run_handlers view signal l w =
  Done tt (show_times (matching view signal l) (toplevel_widget view w) w)
       (concat (repeat [c_gtk_widget_get_toplevel (FlView view);
                        c_gtk_widget_show (toplevel_widget view w)]
                       (matching view signal l))).
Proof.
  revert w. induction l as [|[[v s] cb] l IH]; intros w; [reflexivity|].
  cbn [run_handlers]. unfold matching. cbn [filter fst snd].
  destruct (Nat.eqb v view && String.eqb s signal).
  - destruct cb. unfold bind, run_callback, first_frame_cb.
    autounfold with toolkit. cbn -[show_times matching].
    fold (toplevel_widget view w).
    rewrite IH. reflexivity.
  - unfold bind, ret. rewrite IH. reflexivity.
Qed.

Lemma show_times_frame (k : nat) (x : widget) (w : World) :
  self (show_times k x w) = self w
  /\ is_registered (show_times k x w) = is_registered w
  /\ next_object (show_times k x w) = next_object w
  /\ toplevel_of (show_times k x w) = toplevel_of w
  /\ connections (show_times k x w) = connections w
  /\ visible (show_times k x w) = repeat x k ++ visible w.
Proof.
  revert w. induction k as [|k IH]; intros w; [now repeat split|].
  cbn [show_times]. destruct (IH (add_visible x w)) as (? & ? & ? & ? & ? & Hv).
  repeat split; try assumption.
  rewrite Hv. cbn [add_visible visible].
  change (x :: visible w) with ([x] ++ visible w).
  rewrite app_assoc. f_equal. now rewrite <- repeat_cons.
Qed.

Lemma shown_callbacks (view : nat) (x : widget) (k : nat) :
  shown (concat (repeat [c_gtk_widget_get_toplevel (FlView view);
                         c_gtk_widget_show x] k))
  = repeat x k.
Proof.
  induction k as [|k IH]; [reflexivity|].
  cbn [repeat concat]. unfold shown in *. rewrite flat_map_app, IH.
  reflexivity.
Qed.

(** A trace of callback runs holds nothing but toplevel lookups and shows. *)
Lemma callbacks_silent {A : Type} (f : Event -> list A) (view : nat)
    (x : widget) (k : nat) :
  f (c_gtk_widget_get_toplevel (FlView view)) = [] ->
  f (c_gtk_widget_show x) = [] ->
  flat_map f (concat (repeat [c_gtk_widget_get_toplevel (FlView view);
                              c_gtk_widget_show x] k)) = [].
Proof.
  intros H1 H2. induction k as [|k IH]; [reflexivity|].
  cbn [repeat concat]. rewrite flat_map_app, IH. cbn. now rewrite H1, H2.
Qed.

Lemma matching_unique (view : nat) (l : list (nat * string * callback)) :
  Forall (fun c => snd (fst c) = "first-frame") l ->
  NoDup (map (fun c => fst (fst c)) l) ->
  matching view "first-frame" l
  = if existsb (Nat.eqb view) (map (fun c => fst (fst c)) l)
    then 1%nat else 0%nat.
Proof.
  induction l as [|[[v s] cb] l IH]; intros Hsig Hnd; [reflexivity|].
  inversion Hsig as [|? ? Hs Hsig']; subst. inversion Hnd as [|? ? Hnot Hnd'];
    subst. cbn in Hs, Hnot. subst s.
  unfold matching in *. cbn [filter map existsb fst snd].
  rewrite (Nat.eqb_sym view v).
  change (String.eqb "first-frame" "first-frame") with true.
  rewrite andb_true_r.
  destruct (Nat.eqb_spec v view) as [->|Hne]; cbn [orb].
  - cbn [length]. rewrite (IH Hsig' Hnd').
    destruct (existsb (Nat.eqb view) (map (fun c => fst (fst c)) l))
      eqn:Hex; [|reflexivity].
    apply existsb_exists in Hex. destruct Hex as (y & Hin & Heq).
    apply Nat.eqb_eq in Heq. subst y. contradiction.
  - exact (IH Hsig' Hnd').
Qed.

Lemma container_of_In (view window : nat) (l : list (nat * nat)) :
  container_of view l = Some window -> In (view, window) l.
Proof.
  induction l as [|[v win] l IH]; [discriminate|].
  cbn. destruct (Nat.eqb_spec v view) as [->|Hne].
  - intros [= ->]. now left.
  - intros H. right. exact (IH H).
Qed.

Lemma connected_has_window (view : nat) (w : World) :
  coherent w ->
  connected view w = true ->
  exists window,
    container_of view (toplevel_of w) = Some window
    /\ (window < next_object w)%nat.
Proof.
  intros (_ & Hwin & _ & Hconn) Hc.
  unfold connected, view_ids in Hc. apply existsb_exists in Hc.
  destruct Hc as (v & Hin & Heq). apply Nat.eqb_eq in Heq. subst v.
  apply in_map_iff in Hin. destruct Hin as (c & Hid & Hin).
  rewrite Forall_forall in Hconn. destruct (Hconn c Hin) as (_ & window & Hc).
  rewrite Hid in Hc. exists window. split; [exact Hc|].
  rewrite Forall_forall in Hwin.
  exact (Hwin _ (container_of_In _ _ _ Hc)).
Qed.

Lemma coherent_shown (k : nat) (x : widget) (w : World) :
  coherent w -> (widget_id x < next_object w)%nat ->
  coherent (show_times k x w).
Proof.
  intros ((Hc & Ht & Hv) & Hwin & Hnd & Hconn) Hx.
  destruct (show_times_frame k x w) as (_ & _ & Hn & Htop & Hcon & Hvis).
  unfold coherent, wf_world, view_ids. rewrite Hn, Htop, Hcon, Hvis.
  repeat split; try assumption.
  apply Forall_app. split; [|assumption].
  apply Forall_forall. intros y Hy. apply repeat_spec in Hy. now subst y.
Qed.

Lemma emission_run (view : nat) (w : World) :
  coherent w ->
  exists w' tr,
    g_signal_emit view "first-frame" w = Done tt w' tr
    /\ shown tr =
       match (if connected view w
              then container_of view (toplevel_of w) else None) with
       | Some window => [GtkWindow window]
       | None => []
       end
    /\ (connected view w = true ->
        exists window, container_of view (toplevel_of w) = Some window)
    /\ visible w' = shown tr ++ visible w
    /\ connections w' = connections w
    /\ coherent w'.
Proof.
  intros Hco. unfold g_signal_emit, bind at 1, get.
  rewrite run_handlers_run.
  assert (Hm : matching view "first-frame" (connections w)
               = if connected view w then 1%nat else 0%nat).
  { destruct Hco as (_ & _ & Hnd & Hconn).
    apply matching_unique; [|exact Hnd].
    eapply Forall_impl; [|exact Hconn]. now intros c (Hs & _). }
  rewrite Hm.
  destruct (connected view w) eqn:Hc.
  - destruct (connected_has_window view w Hco Hc) as (window & Htop & Hlt).
    unfold toplevel_widget. rewrite Htop.
    do 2 eexists. split; [reflexivity|].
    split; [reflexivity|]. split; [eauto|].
    split; [reflexivity|]. split; [reflexivity|].
    exact (coherent_shown 1 (GtkWindow window) w Hco Hlt).
  - do 2 eexists. split; [reflexivity|].
    split; [reflexivity|]. split; [discriminate|].
    split; [reflexivity|]. split; [reflexivity|]. exact Hco.
Qed.

Lemma NoDup_snoc {A : Type} (x : A) (l : list A) :
  ~ In x l -> NoDup l -> NoDup (l ++ [x]).
Proof.
  intros Hx Hl. induction Hl as [|y l Hy Hl IH]; cbn.
  - constructor; [intros []|constructor].
  - constructor.
    + rewrite in_app_iff. intros [Hin|[Heq|[]]]; [contradiction|].
      subst. apply Hx. now left.
    + apply IH. intros Hin. apply Hx. now right.
Qed.

Lemma coherent_activated (w : World) : coherent w -> coherent (activated w).
Proof.
  intros (Hwf & Hwin & Hnd & Hconn).
  split; [exact (wf_world_activated w Hwf)|].
  destruct Hwf as (Hc & Ht & _).
  unfold activated, view_ids in *.
  cbn [next_object toplevel_of connections].
  split; [|split].
  - constructor; [cbn; lia|].
    eapply Forall_impl; [|exact Hwin]. cbn. intros; lia.
  - rewrite map_app. cbn [map fst].
    apply NoDup_snoc; [|exact Hnd].
    intros Hin. apply in_map_iff in Hin. destruct Hin as (c & Hid & Hin).
    rewrite Forall_forall in Hc. specialize (Hc c Hin). lia.
  - apply Forall_app. split.
    + rewrite Forall_forall in *. intros c Hin.
      destruct (Hconn c Hin) as (Hs & window & Htop).
      split; [exact Hs|]. exists window. cbn [container_of].
      specialize (Hc c Hin).
      replace (Nat.eqb (S (S (next_object w))) (fst (fst c))) with false
        by (symmetry; apply Nat.eqb_neq; lia).
      exact Htop.
    + constructor; [|constructor]. cbn [fst snd container_of].
      split; [reflexivity|]. exists (next_object w).
      now rewrite Nat.eqb_refl.
Qed.

Lemma coherent_set_self (a : MyApplication) (w : World) :
  coherent w -> coherent (set_self a w).
Proof. intros H. exact H. Qed.

Lemma coherent_set_registered (w : World) :
  coherent w -> coherent (set_registered w).
Proof. intros H. exact H. Qed.

Ltac icon_split env :=
  unfold icon_setup;
  destruct (read_link env "/proc/self/exe") as [?exe|];
  [destruct (load_pixbuf env _) as [?icon|?message]|].

Ltac incl_solve := intros ?x ?Hx; cbn in *; tauto.

Ltac quiet_rest :=
  split; [reflexivity|]; split; [reflexivity|]; split; [reflexivity|];
  split; [reflexivity|]; split; [incl_solve|]; split; [reflexivity|];
  split; [exact (fun H => H)|]; split; [left; split; reflexivity|];
  reflexivity.

Ltac quiet := do 2 eexists; split; [reflexivity|]; quiet_rest.

(** One stimulus: what it does to the field, to memory, to the images, to
    the engine, to the windows and to the names. *)
Lemma react_step (s : stimulus) (w : World) :
  admissible s = true ->
  exists w' tr,
    react s w = Done tt w' tr
    /\ dart_entrypoint_arguments (self w')
       = field_after s (dart_entrypoint_arguments (self w))
    /\ freed tr = freed_by s (dart_entrypoint_arguments (self w))
    /\ copies tr = command_line_tails [s]
    /\ map snd (icons_set tr) = unrefs tr
    /\ incl (entrypoint_arguments_passed tr)
            [dart_entrypoint_arguments (self w);
             field_after s (dart_entrypoint_arguments (self w))]
    /\ (is_first_frame s = false ->
        forall i, is_visible (GtkWindow i) w' = is_visible (GtkWindow i) w)
    /\ (coherent w -> coherent w')
    /\ ((windows_created tr = [] /\ next_object w' = next_object w)
        \/ (windows_created tr = [next_object w]
            /\ next_object w' = (3 + next_object w)%nat))
    /\ length (windows_created tr)
       = (activations tr + if is_activate_call s then 1 else 0)%nat.
Proof.
  intros Hadm. destruct s as [env op|view].
  - destruct op as [|arguments| | | | |view]; cbn [react run_operation].
    + (* activate *)
      rewrite activate_run. do 2 eexists. split; [reflexivity|].
      split; [reflexivity|].
      split; [icon_split env; reflexivity|].
      split; [icon_split env; reflexivity|].
      split; [icon_split env; reflexivity|].
      split; [icon_split env; incl_solve|].
      split; [reflexivity|].
      split; [apply coherent_activated|].
      split; [right; split; [icon_split env|]; reflexivity|].
      icon_split env; reflexivity.
    + (* local_command_line *)
      destruct arguments as [|binary rest]; [discriminate|].
      unfold bind at 1. rewrite command_line_run. cbn zeta.
      rewrite activate_run. cbn [trace_of].
      destruct (registration_error env w) as [message|].
      * quiet.
      * do 2 eexists. split; [reflexivity|].
        split; [destruct (is_registered w); reflexivity|].
        split; [destruct (is_registered w); icon_split env; reflexivity|].
        split; [destruct (is_registered w); icon_split env; reflexivity|].
        split; [destruct (is_registered w); icon_split env; reflexivity|].
        split; [destruct (is_registered w); icon_split env; incl_solve|].
        split; [destruct (is_registered w); reflexivity|].
        split; [intros Hco; destruct (is_registered w);
                apply coherent_activated; exact Hco|].
        split; [right; destruct (is_registered w);
                (split; [icon_split env|]); reflexivity|].
        destruct (is_registered w); icon_split env; reflexivity.
    + quiet.
    + quiet.
    + (* dispose *)
      unfold my_application_dispose. autounfold with toolkit.
      destruct (dart_entrypoint_arguments (self w)) as [v|] eqn:Hfield;
        cbn; rewrite ?Hfield.
      * quiet.
      * do 2 eexists. split; [reflexivity|]. rewrite Hfield. quiet_rest.
    + quiet.
    + discriminate.
  - cbn [react].
    unfold g_signal_emit, bind at 1, get. rewrite run_handlers_run.
    set (k := matching view "first-frame" (connections w)).
    set (x := toplevel_widget view w).
    destruct (show_times_frame k x w) as (Hs & _ & Hn & _ & _ & _).
    do 2 eexists. split; [reflexivity|].
    cbn [app]. rewrite Hs, Hn.
    split; [reflexivity|].
    split; [apply callbacks_silent; reflexivity|].
    split; [apply callbacks_silent; reflexivity|].
    split.
    { unfold unrefs, icons_set.
      rewrite !callbacks_silent by reflexivity. reflexivity. }
    split.
    { unfold entrypoint_arguments_passed.
      rewrite callbacks_silent by reflexivity. intros ? []. }
    split; [discriminate|].
    split.
    { intros Hco. destruct (emission_run view w Hco)
        as (w' & tr & Hrun & _ & _ & _ & _ & Hco').
      unfold g_signal_emit, bind at 1, get in Hrun.
      rewrite run_handlers_run in Hrun. cbn [app] in Hrun.
      injection Hrun as Hw _. subst k x. rewrite Hw. exact Hco'. }
    split.
    { left. split; [|reflexivity].
      apply callbacks_silent; reflexivity. }
    unfold activations, windows_created.
    rewrite !callbacks_silent by reflexivity. reflexivity.
Qed.

Lemma field_after_cases (s : stimulus) (held : option strv) :
  In (field_after s held) (held :: None :: command_line_tails [s]).
Proof.
  destruct s as [env op|view]; [|now left].
  destruct op as [|[|binary rest]| | | | |]; cbn; tauto.
Qed.

(** Any admissible sequence of stimuli runs to its end; what it leaves
    behind is read off the sequence. *)
Lemma react_all_run (l : list stimulus) (w : World) :
  forallb admissible l = true ->
  exists w' tr,
    react_all l w = Done tt w' tr
    /\ dart_entrypoint_arguments (self w')
       = field_after_all l (dart_entrypoint_arguments (self w))
    /\ freed tr = held_at_disposals l (dart_entrypoint_arguments (self w))
    /\ copies tr = command_line_tails l
    /\ map snd (icons_set tr) = unrefs tr
    /\ incl (entrypoint_arguments_passed tr)
            (dart_entrypoint_arguments (self w) :: None
             :: command_line_tails l)
    /\ (existsb is_first_frame l = false ->
        forall i, is_visible (GtkWindow i) w' = is_visible (GtkWindow i) w)
    /\ (coherent w -> coherent w')
    /\ windows_created tr
       = map (fun k => next_object w + 3 * k)%nat
             (seq 0 (length (windows_created tr)))
    /\ next_object w'
       = (next_object w + 3 * length (windows_created tr))%nat
    /\ length (windows_created tr) = (activations tr + activate_calls l)%nat.
Proof.
  revert w. induction l as [|s l IH]; intros w Hadm.
  - do 2 eexists. split; [reflexivity|]. cbn.
    split; [reflexivity|]. split; [reflexivity|]. split; [reflexivity|].
    split; [reflexivity|]. split; [intros x []|]. split; [reflexivity|].
    split; [exact (fun H => H)|]. split; [reflexivity|]. split; lia.
  - cbn [forallb] in Hadm. apply andb_prop in Hadm.
    destruct Hadm as (Hs & Hl).
    destruct (react_step s w Hs)
      as (w1 & tr1 & Hrun1 & Hf1 & Hfr1 & Hc1 & Hi1 & Hp1 & Hv1 & Hco1
          & Hw1 & Ha1).
    destruct (IH w1 Hl)
      as (w2 & tr2 & Hrun2 & Hf2 & Hfr2 & Hc2 & Hi2 & Hp2 & Hv2 & Hco2
          & Hw2 & Hn2 & Ha2).
    exists w2, (tr1 ++ tr2).
    split. { cbn [react_all]. unfold bind. now rewrite Hrun1, Hrun2. }
    split. { rewrite Hf2, Hf1. reflexivity. }
    split.
    { unfold freed in *. rewrite flat_map_app, Hfr1, Hfr2, Hf1.
      reflexivity. }
    split.
    { unfold copies in *. rewrite flat_map_app, Hc1, Hc2.
      cbn. now rewrite app_nil_r. }
    split.
    { unfold icons_set, unrefs in *.
      rewrite !flat_map_app, map_app, Hi1, Hi2. reflexivity. }
    split.
    { unfold entrypoint_arguments_passed in *. rewrite flat_map_app.
      intros a Ha. apply in_app_or in Ha.
      pose proof (field_after_cases s (dart_entrypoint_arguments (self w)))
        as Hcase.
      replace (command_line_tails (s :: l))
        with (command_line_tails [s] ++ command_line_tails l)
        by (unfold command_line_tails; cbn [flat_map];
            now rewrite app_nil_r).
      assert (Hstep : In (field_after s (dart_entrypoint_arguments (self w)))
                         (dart_entrypoint_arguments (self w) :: None
                          :: command_line_tails [s] ++ command_line_tails l)).
      { cbn in Hcase |- *. rewrite in_app_iff. tauto. }
      destruct Ha as [Ha|Ha].
      - apply Hp1 in Ha. destruct Ha as [<-|[<-|[]]]; [now left|exact Hstep].
      - apply Hp2 in Ha. rewrite Hf1 in Ha.
        destruct Ha as [<-|[<-|Ha]]; [exact Hstep|right; now left|].
        right. right. rewrite in_app_iff. now right. }
    split.
    { cbn [existsb]. intros Hff. apply orb_false_elim in Hff.
      destruct Hff as (Hff1 & Hff2). intros i.
      rewrite (Hv2 Hff2 i). exact (Hv1 Hff1 i). }
    split; [auto|].
    assert (Hlen : length (windows_created (tr1 ++ tr2))
                   = (length (windows_created tr1)
                      + length (windows_created tr2))%nat).
    { unfold windows_created. now rewrite flat_map_app, length_app. }
    split.
    { unfold windows_created in *. rewrite flat_map_app, length_app.
      destruct Hw1 as [(Hnone & Hsame)|(Hone & Hthree)].
      - rewrite Hnone. cbn [app length Nat.add].
        rewrite Hw2 at 1. now rewrite Hsame.
      - rewrite Hone. cbn [app length Nat.add seq map].
        f_equal; [lia|]. rewrite Hw2 at 1. rewrite <- seq_shift, map_map.
        apply map_ext. intros k. lia. }
    split.
    { rewrite Hlen, Hn2.
      destruct Hw1 as [(Hnone & Hsame)|(Hone & Hthree)].
      - rewrite Hnone, Hsame. cbn. lia.
      - rewrite Hone, Hthree. cbn [length]. lia. }
    rewrite Hlen, Ha1, Ha2. unfold activations, activate_calls.
    rewrite flat_map_app, length_app. cbn [filter].
    destruct (is_activate_call s); cbn [length]; lia.
Qed.

Lemma keeps_field_admissible (l : list stimulus) :
  forallb keeps_field l = true -> forallb admissible l = true.
Proof.
  induction l as [|s l IH]; [reflexivity|]. cbn [forallb].
  intros H. apply andb_prop in H. destruct H as (Hs & Hl).
  rewrite (IH Hl), andb_true_r.
  destruct s as [env [|[|]| | | | |]|]; try reflexivity; discriminate.
Qed.

Lemma keeps_field_quiet (l : list stimulus) (held : option strv) :
  forallb keeps_field l = true ->
  field_after_all l held = held
  /\ held_at_disposals l held = []
  /\ command_line_tails l = [].
Proof.
  induction l as [|s l IH]; [now repeat split|]. cbn [forallb].
  intros H. apply andb_prop in H. destruct H as (Hs & Hl).
  destruct (IH Hl) as (Hf & Hd & Hc).
  assert (Hsame : field_after s held = held).
  { destruct s as [env [|[|]| | | | |]|]; try reflexivity; discriminate. }
  assert (Hfree : freed_by s held = []).
  { destruct s as [env [|[|]| | | | |]|]; try reflexivity; discriminate. }
  assert (Htail : command_line_tails [s] = []).
  { destruct s as [env [|[|]| | | | |]|]; try reflexivity; discriminate. }
  unfold field_after_all in *. cbn [fold_left held_at_disposals].
  rewrite Hsame. fold (freed_by s held). rewrite Hfree, Hf, Hd.
  repeat split.
  unfold command_line_tails in *. cbn [flat_map] in *.
  rewrite app_nil_r in Htail. now rewrite Htail, Hc.
Qed.

Lemma held_at_disposals_app (l1 l2 : list stimulus) (held : option strv) :
  held_at_disposals (l1 ++ l2) held
  = held_at_disposals l1 held
    ++ held_at_disposals l2 (field_after_all l1 held).
Proof.
  revert held. induction l1 as [|s l1 IH]; intros held; [reflexivity|].
  cbn [app held_at_disposals]. rewrite IH, <- app_assoc. reflexivity.
Qed.

(** X1. In a coherent world an emission of [first-frame] by a view that
    an activation connected runs the callback once and shows exactly the
    window that holds this view; an emission by any other view runs
    nothing.  Connections stay, and the world stays coherent. *)
Theorem first_frame_reveals_own_window (view : nat) (w : World) :
  coherent w ->
  exists w' tr,
    g_signal_emit view "first-frame" w = Done tt w' tr
    /\ shown tr =
       match (if connected view w
              then container_of view (toplevel_of w) else None) with
       | Some window => [GtkWindow window]
       | None => []
       end
    /\ visible w' = shown tr ++ visible w
    /\ connections w' = connections w
    /\ coherent w'.
Proof.
  intros Hco.
  destruct (emission_run view w Hco)
    as (w' & tr & Hrun & Hshown & _ & Hvis & Hconn & Hco').
  exists w', tr. auto 10.
Qed.

(** X2. Once a command line is handled, whatever came before, the field
    holds the arguments after the binary through any number of
    activations, startups, shutdowns and first frames, and a later
    activation still hands exactly them to the engine. *)
Theorem arguments_persist (before after : list stimulus) (env env' : Env)
    (binary : string) (rest : strv) (w : World) :
  forallb admissible before = true ->
  forallb keeps_field after = true ->
  exists w' tr,
    react_all (before ++ Call env (Op_local_command_line (binary :: rest))
                      :: after) w = Done tt w' tr
    /\ dart_entrypoint_arguments (self w') = Some rest
    /\ entrypoint_arguments_passed
         (trace_of (my_application_activate env' w')) = [Some rest].
Proof.
  intros Hb Ha.
  assert (Hadm : forallb admissible
                   (before ++ Call env (Op_local_command_line
                                          (binary :: rest)) :: after)
                 = true).
  { rewrite forallb_app, Hb. cbn. now apply keeps_field_admissible. }
  destruct (react_all_run _ w Hadm) as (w' & tr & Hrun & Hf & _).
  assert (Hfield : dart_entrypoint_arguments (self w') = Some rest).
  { rewrite Hf. unfold field_after_all. rewrite fold_left_app.
    cbn [fold_left field_after].
    exact (proj1 (keeps_field_quiet after (Some rest) Ha)). }
  exists w', tr. split; [exact Hrun|]. split; [exact Hfield|].
  rewrite activate_run. cbn [trace_of]. rewrite Hfield.
  icon_split env'; reflexivity.
Qed.

(** X3. Over any admissible sequence the vectors freed are exactly the
    vectors the disposals find in the field, in order: nothing but
    [dispose] frees, and a disposal of a null field frees nothing. *)
Theorem only_disposal_frees (l : list stimulus) (w : World) :
  forallb admissible l = true ->
  exists w' tr,
    react_all l w = Done tt w' tr
    /\ freed tr = held_at_disposals l (dart_entrypoint_arguments (self w)).
Proof.
  intros Hadm.
  destruct (react_all_run l w Hadm) as (w' & tr & Hrun & _ & Hfr & _).
  eauto.
Qed.

(** X4. The command-line handler overwrites the field without freeing what
    it held: after two command lines and a disposal two vectors were
    copied and only the second was freed. *)
Theorem second_command_line_leaks_first (env1 env2 env3 : Env)
    (binary1 binary2 : string) (rest1 rest2 : strv) (w : World) :
  exists w' tr,
    react_all [Call env1 (Op_local_command_line (binary1 :: rest1));
               Call env2 (Op_local_command_line (binary2 :: rest2));
               Call env3 Op_dispose] w = Done tt w' tr
    /\ copies tr = [Some rest1; Some rest2]
    /\ freed tr = [rest2]
    /\ dart_entrypoint_arguments (self w') = None.
Proof.
  destruct (react_all_run
              [Call env1 (Op_local_command_line (binary1 :: rest1));
               Call env2 (Op_local_command_line (binary2 :: rest2));
               Call env3 Op_dispose] w eq_refl)
    as (w' & tr & Hrun & Hf & Hfr & Hc & _).
  exists w', tr. repeat split; assumption.
Qed.

(** X5. The ordinary life of the object is balanced: one command line,
    then any activations, startups, shutdowns and first frames, then a
    disposal copy one vector and free that same vector, and leave the
    field null. *)
Theorem lifecycle_balanced (env env' : Env) (binary : string) (rest : strv)
    (middle : list stimulus) (w : World) :
  forallb keeps_field middle = true ->
  exists w' tr,
    react_all (Call env (Op_local_command_line (binary :: rest))
               :: middle ++ [Call env' Op_dispose]) w = Done tt w' tr
    /\ copies tr = [Some rest]
    /\ freed tr = [rest]
    /\ dart_entrypoint_arguments (self w') = None.
Proof.
  intros Hm.
  assert (Hadm : forallb admissible
                   (Call env (Op_local_command_line (binary :: rest))
                    :: middle ++ [Call env' Op_dispose]) = true).
  { cbn [forallb admissible]. rewrite forallb_app.
    now rewrite (keeps_field_admissible middle Hm). }
  destruct (react_all_run _ w Hadm) as (w' & tr & Hrun & Hf & Hfr & Hc & _).
  destruct (keeps_field_quiet middle (Some rest) Hm) as (Hq1 & Hq2 & Hq3).
  exists w', tr. split; [exact Hrun|]. unfold strv in *. split; [|split].
  - rewrite Hc. unfold command_line_tails in *.
    cbn [flat_map]. rewrite flat_map_app, Hq3. reflexivity.
  - rewrite Hfr. cbn [held_at_disposals field_after].
    rewrite held_at_disposals_app, Hq2, Hq1. reflexivity.
  - rewrite Hf. unfold field_after_all in *. cbn [fold_left field_after].
    rewrite fold_left_app, Hq1. reflexivity.
Qed.

(** X6. Over any admissible sequence the images released are exactly the
    images set as window icons, in the same order: every loaded icon is
    released once, and a failed load releases nothing. *)
Theorem icons_released_once (l : list stimulus) (w : World) :
  forallb admissible l = true ->
  exists w' tr,
    react_all l w = Done tt w' tr
    /\ map snd (icons_set tr) = unrefs tr.
Proof.
  intros Hadm.
  destruct (react_all_run l w Hadm)
    as (w' & tr & Hrun & _ & _ & _ & Hi & _).
  eauto.
Qed.

(** X7. Every vector that reaches the engine over an admissible sequence
    is what the field held at the start, or null, or the tail of a command
    line handled in the sequence. *)
Theorem engine_arguments_come_from_command_lines (l : list stimulus)
    (w : World) :
  forallb admissible l = true ->
  exists w' tr,
    react_all l w = Done tt w' tr
    /\ incl (entrypoint_arguments_passed tr)
            (dart_entrypoint_arguments (self w) :: None
             :: command_line_tails l).
Proof.
  intros Hadm.
  destruct (react_all_run l w Hadm)
    as (w' & tr & Hrun & _ & _ & _ & _ & Hp & _).
  eauto.
Qed.

(** X8. No operation of the object shows a window: over an admissible
    sequence without a [first-frame] emission the windows that are visible
    at the end are those that were visible at the start. *)
Theorem no_window_without_first_frame (l : list stimulus) (w : World) :
  forallb admissible l = true ->
  existsb is_first_frame l = false ->
  exists w' tr,
    react_all l w = Done tt w' tr
    /\ forall i, is_visible (GtkWindow i) w' = is_visible (GtkWindow i) w.
Proof.
  intros Hadm Hff.
  destruct (react_all_run l w Hadm)
    as (w' & tr & Hrun & _ & _ & _ & _ & _ & Hv & _).
  eauto.
Qed.

(** X9. Coherence is an invariant: every admissible sequence takes a
    coherent world to a coherent one, so every world reached from the
    initial one is coherent (and well formed). *)
Theorem coherent_invariant (l : list stimulus) (w : World) :
  coherent w ->
  forallb admissible l = true ->
  exists w' tr,
    react_all l w = Done tt w' tr /\ coherent w' /\ wf_world w'.
Proof.
  intros Hco Hadm.
  destruct (react_all_run l w Hadm)
    as (w' & tr & Hrun & _ & _ & _ & _ & _ & _ & Hco' & _).
  exists w', tr. split; [exact Hrun|]. split; [auto|]. apply (Hco' Hco).
Qed.

(** X10. Windows come from activations only, one each: over an admissible
    sequence the windows created are as many as the activations asked for
    directly or by a command line, and they get the fresh names
    [n], [n + 3], [n + 6], ... from the first free name [n]. *)
Theorem one_window_per_activation (l : list stimulus) (w : World) :
  forallb admissible l = true ->
  exists w' tr,
    react_all l w = Done tt w' tr
    /\ length (windows_created tr) = (activations tr + activate_calls l)%nat
    /\ windows_created tr
       = map (fun k => next_object w + 3 * k)%nat
             (seq 0 (length (windows_created tr)))
    /\ next_object w'
       = (next_object w + 3 * length (windows_created tr))%nat.
Proof.
  intros Hadm.
  destruct (react_all_run l w Hadm)
    as (w' & tr & Hrun & _ & _ & _ & _ & _ & _ & _ & Hw & Hn & Ha).
  exists w', tr. repeat split; assumption.
Qed.

(** X11. After a disposal the engine never gets a vector: every activation
    that follows, until the next command line, hands it [nullptr], so the
    freed vector is not used again. *)
Theorem no_arguments_after_disposal (env : Env) (after : list stimulus)
    (w : World) :
  forallb keeps_field after = true ->
  exists w' tr,
    react_all (Call env Op_dispose :: after) w = Done tt w' tr
    /\ Forall (fun a => a = None) (entrypoint_arguments_passed tr).
Proof.
  intros Ha.
  pose proof (keeps_field_admissible after Ha) as Hadm.
  destruct (react_step (Call env Op_dispose) w eq_refl)
    as (w1 & tr1 & Hrun1 & Hf1 & _ & _ & _ & Hp1 & _).
  destruct (react_all_run after w1 Hadm)
    as (w2 & tr2 & Hrun2 & _ & _ & _ & _ & Hp2 & _).
  exists w2, (tr1 ++ tr2). split.
  { cbn [react_all]. unfold bind. now rewrite Hrun1, Hrun2. }
  assert (Hnone : entrypoint_arguments_passed tr1 = []).
  { cbn [react run_operation] in Hrun1.
    unfold my_application_dispose in Hrun1.
    autounfold with toolkit in Hrun1.
    destruct (dart_entrypoint_arguments (self w)); cbn in Hrun1;
      injection Hrun1 as _ <-; reflexivity. }
  unfold entrypoint_arguments_passed in *. rewrite flat_map_app, Hnone.
  cbn [app]. apply Forall_forall. intros a Hin. apply Hp2 in Hin.
  rewrite Hf1 in Hin. cbn [field_after] in Hin.
  rewrite (proj2 (proj2 (keeps_field_quiet after None Ha))) in Hin.
  destruct Hin as [<-|[<-|[]]]; reflexivity.
Qed.

End LifecycleProperties.

(** * Concrete sessions on the reference platform *)

Lemma coherent_world0 : coherent world0.
Proof. repeat split; constructor. Qed.

Example two_windows_reached :
  react_all [Call env_bundle
               (Op_local_command_line ["captioner"; "--lang"; "en"]);
             Call env_dev_broken Op_activate] world0
  = Done tt two_windows
      (trace_of (react_all
                   [Call env_bundle
                      (Op_local_command_line ["captioner"; "--lang"; "en"]);
                    Call env_dev_broken Op_activate] world0)).
Proof. reflexivity. Qed.

Lemma coherent_two_windows : coherent two_windows.
Proof.
  unfold coherent, wf_world, two_windows, view_ids. cbn.
  repeat split; repeat (constructor; cbn; try lia);
    try (split; [reflexivity|eexists; reflexivity]).
  all: cbn; eexists; reflexivity.
Qed.

(** X1 on two windows: the first frame of the second view shows the second
    window only. *)
Lemma first_frame_reveals_own_window_witness :
  coherent two_windows
  /\ exists w' tr,
       g_signal_emit 5 "first-frame" two_windows = Done tt w' tr
       /\ shown tr = [GtkWindow 3]
       /\ visible w' = [GtkWindow 3] ++ visible two_windows
       /\ connections w' = connections two_windows
       /\ coherent w'.
Proof.
  split; [exact coherent_two_windows|].
  destruct (first_frame_reveals_own_window 5 two_windows
              coherent_two_windows)
    as (w' & tr & Hrun & Hshown & Hvis & Hconn & Hco).
  exists w', tr. cbn in Hshown. rewrite Hshown in Hvis. auto 10.
Defined.

(** X2: the arguments of the session survive a second activation, a first
    frame and a shutdown. *)
Lemma arguments_persist_witness :
  exists w' tr,
    react_all ([Call env_no_session Op_activate]
               ++ Call env_bundle
                    (Op_local_command_line ["captioner"; "--lang"; "en"])
               :: session_middle) world0 = Done tt w' tr
    /\ dart_entrypoint_arguments (self w') = Some ["--lang"; "en"]
    /\ entrypoint_arguments_passed
         (trace_of (my_application_activate env_no_proc w'))
       = [Some ["--lang"; "en"]].
Proof.
  exact (@arguments_persist simple_paths [Call env_no_session Op_activate]
           session_middle env_bundle env_no_proc "captioner"
           ["--lang"; "en"] world0 eq_refl eq_refl).
Defined.

(** X3 on the session: its one disposal frees the stored vector. *)
Lemma only_disposal_frees_witness :
  exists w' tr,
    react_all session world0 = Done tt w' tr
    /\ freed tr = [["--lang"; "en"]].
Proof.
  exact (@only_disposal_frees simple_paths session world0 eq_refl).
Defined.

(** X5 on the session. *)
Lemma lifecycle_balanced_witness :
  exists w' tr,
    react_all session world0 = Done tt w' tr
    /\ copies tr = [Some ["--lang"; "en"]]
    /\ freed tr = [["--lang"; "en"]]
    /\ dart_entrypoint_arguments (self w') = None.
Proof.
  exact (@lifecycle_balanced simple_paths env_bundle env_bundle "captioner"
           ["--lang"; "en"] session_middle world0 eq_refl).
Defined.

(** X6 on the session: one icon loads and is released, the other fails. *)
Lemma icons_released_once_witness :
  exists w' tr,
    react_all session world0 = Done tt w' tr
    /\ map snd (icons_set tr) = unrefs tr.
Proof.
  exact (@icons_released_once simple_paths session world0 eq_refl).
Defined.

Example session_icons :
  unrefs (trace_of (react_all session world0))
  = [Pixbuf "/opt/captioner/data/captioner.png"].
Proof. reflexivity. Qed.

(** X7 on the session. *)
Lemma engine_arguments_come_from_command_lines_witness :
  exists w' tr,
    react_all session world0 = Done tt w' tr
    /\ incl (entrypoint_arguments_passed tr)
            [None; None; Some ["--lang"; "en"]].
Proof.
  exact (@engine_arguments_come_from_command_lines simple_paths session
           world0 eq_refl).
Defined.

(** X8: without a first frame both windows of the session stay hidden. *)
Lemma no_window_without_first_frame_witness :
  exists w' tr,
    react_all session_unrendered world0 = Done tt w' tr
    /\ forall i, is_visible (GtkWindow i) w' = false.
Proof.
  exact (@no_window_without_first_frame simple_paths session_unrendered
           world0 eq_refl eq_refl).
Defined.

(** With the first frame of view 2, window 0 is visible at the end. *)
Example session_reveals_first_window :
  is_visible (GtkWindow 0) (world_of world0 (react_all session world0))
  = true
  /\ is_visible (GtkWindow 3) (world_of world0 (react_all session world0))
     = false.
Proof. split; reflexivity. Qed.

(** X9 on the session, from the initial world. *)
Lemma coherent_invariant_witness :
  coherent world0
  /\ exists w' tr,
       react_all session world0 = Done tt w' tr
       /\ coherent w' /\ wf_world w'.
Proof.
  split; [exact coherent_world0|].
  exact (@coherent_invariant simple_paths session world0 coherent_world0
           eq_refl).
Defined.

(** X10 on the session: two windows, named 0 and 3. *)
Lemma one_window_per_activation_witness :
  exists w' tr,
    react_all session world0 = Done tt w' tr
    /\ length (windows_created tr) = (activations tr + 1)%nat
    /\ windows_created tr
       = map (fun k => 0 + 3 * k)%nat (seq 0 (length (windows_created tr)))
    /\ next_object w' = (0 + 3 * length (windows_created tr))%nat.
Proof.
  exact (@one_window_per_activation simple_paths session world0 eq_refl).
Defined.

Example session_windows :
  windows_created (trace_of (react_all session world0)) = [0; 3]%nat.
Proof. reflexivity. Qed.

(** X11: activations after a disposal hand [nullptr] to the engine. *)
Lemma no_arguments_after_disposal_witness :
  exists w' tr,
    react_all (Call env_bundle Op_dispose :: session_middle) two_windows
    = Done tt w' tr
    /\ Forall (fun a => a = None) (entrypoint_arguments_passed tr).
Proof.
  exact (@no_arguments_after_disposal simple_paths env_bundle
           session_middle two_windows eq_refl).
Defined.
